(** * The key-manager contract of Tink (cc/key_manager.h)

    The header declares two abstract classes: [KeyFactory], which generates
    new key material, and [KeyManager<P>], which turns key material into a
    primitive [P].  Every member function is pure virtual except
    [KeyManager::DoesSupport], whose body is in the header.

    An abstract class is embedded as a record with one field per virtual
    member function; [const] member functions take the object and return a
    result, never a new object. *)

From Stdlib Require Import ZArith NArith Bool List String Ascii Lia.
Import ListNotations.

Local Open Scope string_scope.
Local Open Scope Z_scope.

(** ** Values that cross the interface *)

(** [uint32_t]: an integer together with the evidence that it fits 32 bits. *)
Definition UINT32_MAX : Z := 2 ^ 32 - 1.

Definition fits_uint32 (z : Z) : bool := (0 <=? z) && (z <=? UINT32_MAX).

Record uint32 : Type := mk_uint32 {
  uint32_val : Z;
  uint32_fits : fits_uint32 uint32_val = true
}.

(** [std::unique_ptr<T>]: either null or an owned object. *)
Definition unique_ptr (T : Type) : Type := option T.
Definition nullptr {T : Type} : unique_ptr T := None.

(** Modelled from the spec: the error kinds of [util::Status]
    (cc/util/status.h is not part of the sources at hand); the taxonomy is
    the one of section 7 of the specification. *)
Inductive StatusCode : Type :=
  | InvalidArgument
  | ParseError
  | WrongKeyType
  | VersionMismatch
  | InternalError.

(** [util::StatusOr<T>]: a value, or the status that explains its absence. *)
Inductive StatusOr (T : Type) : Type :=
  | Ok (v : T)
  | Err (code : StatusCode).
Arguments Ok {T} v.
Arguments Err {T} code.

(** Modelled from the spec: [google::crypto::tink::KeyData] (proto/tink.pb.h
    is not part of the sources at hand), the triple of section 6: type
    identifier, serialized key bytes, material category. *)
Inductive KeyMaterialType : Type :=
  | SYMMETRIC
  | ASYMMETRIC_PRIVATE
  | ASYMMETRIC_PUBLIC
  | REMOTE.

Record KeyData : Type := mk_KeyData {
  type_url : string;
  value : string;
  key_material_type : KeyMaterialType
}.

(** ** Equality of [absl::string_view]

    [operator==] on string views compares the sizes and, when they agree,
    the bytes with [memcmp] over that size. *)

Definition uchar (c : ascii) : Z := Z.of_N (N_of_ascii c).

(** [memcmp p q n] on two buffers that hold at least [n] bytes each: the
    difference of the first pair of bytes that differ, 0 when there is none.
    The last equation is never reached from [string_view_eq], which calls
    [memcmp] only with [n] equal to the size of both buffers. *)
Fixpoint memcmp (p q : string) (n : nat) : Z :=
  match n, p, q with
  | S n', String a p', String b q' =>
      if uchar a =? uchar b then memcmp p' q' n' else uchar a - uchar b
  | _, _, _ => 0
  end.

Definition string_view_eq (x y : string) : bool :=
  let len := String.length x in
  Nat.eqb len (String.length y) && (Nat.eqb len 0 || (memcmp x y len =? 0)).

(** The same comparison with every byte read made explicit: [byte_at s i] is
    [None] when [i] is outside the buffer, and the comparison then has no
    defined result. *)
Definition byte_at (s : string) (i : nat) : option ascii := String.get i s.

Fixpoint memcmp_reads (p q : string) (i n : nat) : option Z :=
  match n with
  | O => Some 0
  | S n' =>
      match byte_at p i, byte_at q i with
      | Some a, Some b =>
          if uchar a =? uchar b then memcmp_reads p q (S i) n'
          else Some (uchar a - uchar b)
      | _, _ => None
      end
  end.

Definition string_view_eq_reads (x y : string) : option bool :=
  let len := String.length x in
  if negb (Nat.eqb len (String.length y)) then Some false
  else if Nat.eqb len 0 then Some true
  else match memcmp_reads x y 0 len with
       | Some d => Some (d =? 0)
       | None => None
       end.

(** ** The two abstract classes *)

Section Interface.

(** [google::protobuf::Message], and the state of the process-wide source of
    randomness that key generation draws from. *)
Variables (Message Entropy : Type).

(** [class KeyFactory].  The two overloads of [NewKey] are told apart by the
    shape of their argument; generating a key takes the state of the
    randomness source and returns the new one. *)
Record KeyFactory : Type := mk_KeyFactory {
  NewKey_Message : Message -> Entropy -> StatusOr (unique_ptr Message) * Entropy;
  NewKey_serialized : string -> Entropy -> StatusOr (unique_ptr Message) * Entropy;
  NewKeyData : string -> Entropy -> StatusOr (unique_ptr KeyData) * Entropy
}.

(** [template<class P> class KeyManager].  The two overloads of
    [GetPrimitive] are told apart by the shape of their argument. *)
Record KeyManager (P : Type) : Type := mk_KeyManager {
  GetPrimitive_KeyData : KeyData -> StatusOr (unique_ptr P);
  GetPrimitive_Message : Message -> StatusOr (unique_ptr P);
  get_key_type : string;
  get_version : uint32;
  get_key_factory : KeyFactory
}.

Arguments GetPrimitive_KeyData {P} _ _.
Arguments GetPrimitive_Message {P} _ _.
Arguments get_key_type {P} _.
Arguments get_version {P} _.
Arguments get_key_factory {P} _.

(** [bool DoesSupport(absl::string_view key_type) const] *)
Definition DoesSupport {P : Type} (m : KeyManager P) (key_type : string) : bool :=
  string_view_eq key_type (get_key_type m).

(** [DoesSupport] with the reads of the comparison made explicit. *)
Definition DoesSupport_reads {P : Type} (m : KeyManager P) (key_type : string)
  : option bool :=
  string_view_eq_reads key_type (get_key_type m).

End Interface.

Arguments NewKey_Message {Message Entropy} _ _ _.
Arguments NewKey_serialized {Message Entropy} _ _ _.
Arguments NewKeyData {Message Entropy} _ _ _.
Arguments GetPrimitive_KeyData {Message Entropy P} _ _.
Arguments GetPrimitive_Message {Message Entropy P} _ _.
Arguments get_key_type {Message Entropy P} _.
Arguments get_version {Message Entropy P} _.
Arguments get_key_factory {Message Entropy P} _.
Arguments DoesSupport {Message Entropy P} _ _.
Arguments DoesSupport_reads {Message Entropy P} _ _.

(** ** Managers and factories as the specification describes them

    The header leaves [GetPrimitive], [NewKey] and [NewKeyData] pure virtual;
    the classes that implement them are not part of the sources at hand.
    What follows builds, for an arbitrary key type, the manager and the
    factory that sections 4.1 and 4.2 of the specification describe. *)

Section SpecModel.

Variables (Message Entropy P : Type).

(** Modelled from the spec: what is specific to one key type and missing from
    the sources: its type identifier, version and material category, the
    recognisers of its Key Object and Key Format Object types, its wire
    format, the version embedded in a Key Object, key generation from a
    format and randomness, and the construction of the primitive. *)
Record KeyTypeSpec : Type := mk_KeyTypeSpec {
  kt_type_url : string;
  kt_version : uint32;
  kt_material_type : option KeyMaterialType;
  kt_is_key : Message -> bool;
  kt_is_key_format : Message -> bool;
  kt_parse_key : string -> option Message;
  kt_parse_key_format : string -> option Message;
  kt_serialize_key : Message -> string;
  kt_key_version : Message -> N;
  kt_generate : Message -> Entropy -> Message * Entropy;
  kt_construct : Message -> P
}.

Variable kt : KeyTypeSpec.

(** Modelled from the spec: the version test of [GetPrimitive], missing from
    the sources: key material is refused when its embedded version exceeds
    the manager's own. *)
Definition version_exceeds (key : Message) : bool :=
  Z.of_N (kt_key_version kt key) >? uint32_val (kt_version kt).

(** Modelled from the spec: [GetPrimitive(Key Container)] of a concrete
    manager, missing from the sources: [WrongKeyType] when the container's
    type identifier is not the manager's, [ParseError] when the bytes do
    not deserialize, [VersionMismatch] when the version exceeds the
    manager's, otherwise the constructed primitive. *)
Definition spec_GetPrimitive_KeyData (key_data : KeyData) : StatusOr (unique_ptr P) :=
  if negb (string_view_eq (type_url key_data) (kt_type_url kt)) then Err WrongKeyType
  else match kt_parse_key kt (value key_data) with
       | None => Err ParseError
       | Some key =>
           if version_exceeds key then Err VersionMismatch
           else Ok (Some (kt_construct kt key))
       end.

(** Modelled from the spec: [GetPrimitive(Key Object)] of a concrete manager,
    missing from the sources: [InvalidArgument] when the object is not of
    the type the manager understands, otherwise the same contract as for a
    container. *)
Definition spec_GetPrimitive_Message (key : Message) : StatusOr (unique_ptr P) :=
  if negb (kt_is_key kt key) then Err InvalidArgument
  else if version_exceeds key then Err VersionMismatch
  else Ok (Some (kt_construct kt key)).

(** Modelled from the spec: [NewKey(key_format_object)] of a concrete
    factory, missing from the sources: [InvalidArgument] when the format
    object is not of the expected format type, otherwise a key generated
    from the randomness source. *)
Definition spec_NewKey_Message (key_format : Message) (e : Entropy)
  : StatusOr (unique_ptr Message) * Entropy :=
  if negb (kt_is_key_format kt key_format) then (Err InvalidArgument, e)
  else let (key, e') := kt_generate kt key_format e in (Ok (Some key), e').

(** Modelled from the spec: [NewKey(serialized_key_format)] of a concrete
    factory, missing from the sources: [ParseError] when the bytes do not
    deserialize into a format, otherwise as [NewKey] on the format. *)
Definition spec_NewKey_serialized (serialized_key_format : string) (e : Entropy)
  : StatusOr (unique_ptr Message) * Entropy :=
  match kt_parse_key_format kt serialized_key_format with
  | None => (Err ParseError, e)
  | Some key_format => spec_NewKey_Message key_format e
  end.

(** Modelled from the spec: the wrapping step of [NewKeyData], missing from
    the sources: the key is serialized and stamped with the factory's type
    identifier and material category; [InternalError] when no material
    category can be determined. *)
Definition wrap_key (key : Message) : StatusOr (unique_ptr KeyData) :=
  match kt_material_type kt with
  | None => Err InternalError
  | Some category =>
      Ok (Some (mk_KeyData (kt_type_url kt) (kt_serialize_key kt key) category))
  end.

(** Modelled from the spec: [NewKeyData(serialized_key_format)] of a concrete
    factory, missing from the sources: [NewKey] on the serialized format
    followed by [wrap_key]; it fails where [NewKey] fails. *)
Definition spec_NewKeyData (serialized_key_format : string) (e : Entropy)
  : StatusOr (unique_ptr KeyData) * Entropy :=
  match spec_NewKey_serialized serialized_key_format e with
  | (Ok (Some key), e') => (wrap_key key, e')
  | (Ok None, e') => (Err InternalError, e')
  | (Err code, e') => (Err code, e')
  end.

Definition spec_factory : KeyFactory Message Entropy :=
  mk_KeyFactory Message Entropy
    spec_NewKey_Message spec_NewKey_serialized spec_NewKeyData.

Definition spec_manager : KeyManager Message Entropy P :=
  mk_KeyManager Message Entropy P
    spec_GetPrimitive_KeyData spec_GetPrimitive_Message
    (kt_type_url kt) (kt_version kt) spec_factory.

End SpecModel.

Arguments kt_type_url {Message Entropy P} _.
Arguments kt_version {Message Entropy P} _.
Arguments kt_material_type {Message Entropy P} _.
Arguments kt_is_key {Message Entropy P} _ _.
Arguments kt_is_key_format {Message Entropy P} _ _.
Arguments kt_parse_key {Message Entropy P} _ _.
Arguments kt_parse_key_format {Message Entropy P} _ _.
Arguments kt_serialize_key {Message Entropy P} _ _.
Arguments kt_key_version {Message Entropy P} _ _.
Arguments kt_generate {Message Entropy P} _ _ _.
Arguments kt_construct {Message Entropy P} _ _.
Arguments version_exceeds {Message Entropy P} _ _.
Arguments spec_GetPrimitive_KeyData {Message Entropy P} _ _.
Arguments spec_GetPrimitive_Message {Message Entropy P} _ _.
Arguments spec_NewKey_Message {Message Entropy P} _ _ _.
Arguments spec_NewKey_serialized {Message Entropy P} _ _ _.
Arguments wrap_key {Message Entropy P} _ _.
Arguments spec_NewKeyData {Message Entropy P} _ _ _.
Arguments spec_factory {Message Entropy P} _.
Arguments spec_manager {Message Entropy P} _.

(** ** A small key type to run the definitions on

    A symmetric key type whose format asks for a number of key bytes, whose
    keys are a one-byte version followed by the key bytes on the wire, and
    whose primitive simply holds the key bytes. *)

Module Demo.

Inductive Msg : Type :=
  | KeyFormat (key_size : nat)
  | Key (version : N) (key_value : string)
  | Unrelated.

Definition Rand : Type := list ascii.

Record Prim : Type := mk_Prim { prim_key : string }.

Definition is_key (m : Msg) : bool :=
  match m with Key v _ => (v <? 256)%N | _ => false end.

Definition is_key_format (m : Msg) : bool :=
  match m with KeyFormat _ => true | _ => false end.

Definition parse_key (s : string) : option Msg :=
  match s with
  | EmptyString => None
  | String c rest => Some (Key (N_of_ascii c) rest)
  end.

Definition parse_key_format (s : string) : option Msg :=
  match s with
  | String c EmptyString => Some (KeyFormat (nat_of_ascii c))
  | _ => None
  end.

Definition serialize_key (m : Msg) : string :=
  match m with
  | Key v bytes => String (ascii_of_N v) bytes
  | _ => EmptyString
  end.

Definition key_version (m : Msg) : N :=
  match m with Key v _ => v | _ => 0%N end.

Definition generate (f : Msg) (e : Rand) : Msg * Rand :=
  match f with
  | KeyFormat n => (Key 0 (string_of_list_ascii (firstn n e)), skipn n e)
  | _ => (Unrelated, e)
  end.

Definition construct (m : Msg) : Prim :=
  match m with Key _ bytes => mk_Prim bytes | _ => mk_Prim EmptyString end.

Definition demo_url : string := "type.googleapis.com/demo.Key".

Definition demo_version : uint32 := mk_uint32 1 eq_refl.

Definition key_type : KeyTypeSpec Msg Rand Prim :=
  mk_KeyTypeSpec Msg Rand Prim
    demo_url demo_version (Some SYMMETRIC)
    is_key is_key_format parse_key parse_key_format serialize_key
    key_version generate construct.

Definition demo_manager : KeyManager Msg Rand Prim := spec_manager key_type.

(** Sample containers: a good key under an identifier that differs from the
    manager's in the case of one letter; a key one version ahead of the
    manager; a key at the manager's version. *)
Definition wrong_case_key_data : KeyData :=
  mk_KeyData "type.googleapis.com/demo.key" (String (ascii_of_nat 1) "abc") SYMMETRIC.

Definition newer_key_data : KeyData :=
  mk_KeyData demo_url (String (ascii_of_nat 2) "abc") SYMMETRIC.

Definition current_key_data : KeyData :=
  mk_KeyData demo_url (String (ascii_of_nat 1) "abc") SYMMETRIC.

(** A second manager, for another key type with the same shape of keys. *)
Definition other_url : string := "type.googleapis.com/demo.OtherKey".

Definition other_key_type : KeyTypeSpec Msg Rand Prim :=
  mk_KeyTypeSpec Msg Rand Prim
    other_url demo_version (Some SYMMETRIC)
    is_key is_key_format parse_key parse_key_format serialize_key
    key_version generate construct.

Definition other_manager : KeyManager Msg Rand Prim := spec_manager other_key_type.

End Demo.

(** ** The comparison of string views decides equality *)

Lemma uchar_inj (a b : ascii) : uchar a = uchar b -> a = b.
Proof.
  unfold uchar; intro H.
  apply N2Z.inj in H.
  rewrite <- (ascii_N_embedding a), <- (ascii_N_embedding b).
  now rewrite H.
Qed.

Lemma uchar_eqb_true (a b : ascii) : (uchar a =? uchar b) = true -> a = b.
Proof. intro H. apply uchar_inj. now apply Z.eqb_eq. Qed.

Lemma memcmp_zero_iff (p : string) :
  forall q : string,
    String.length p = String.length q ->
    (memcmp p q (String.length p) = 0 <-> p = q).
Proof.
  induction p as [|a p IH]; intros [|b q] Hlen; simpl in *; try discriminate.
  - split; reflexivity.
  - injection Hlen as Hlen.
    destruct (uchar a =? uchar b) eqn:Hab.
    + apply uchar_eqb_true in Hab; subst b.
      rewrite (IH q Hlen); split; [now intros -> | now intros [= ->]].
    + split.
      * intro Hd. apply Z.eqb_neq in Hab. lia.
      * intros [= -> _]. rewrite Z.eqb_refl in Hab. discriminate.
Qed.

Lemma string_view_eq_iff (x y : string) : string_view_eq x y = true <-> x = y.
Proof.
  unfold string_view_eq; split.
  - intro H. apply andb_prop in H as [Hlen H].
    apply Nat.eqb_eq in Hlen.
    apply orb_prop in H as [H0 | Hm].
    + apply Nat.eqb_eq in H0.
      destruct x; [|discriminate]. destruct y; [reflexivity|discriminate].
    + apply Z.eqb_eq in Hm. now apply (memcmp_zero_iff x y Hlen).
  - intros <-. rewrite Nat.eqb_refl. simpl.
    assert (Hm : memcmp x x (String.length x) = 0)
      by now apply memcmp_zero_iff.
    rewrite Hm. apply orb_true_r.
Qed.

Lemma string_view_eq_refl (x : string) : string_view_eq x x = true.
Proof. now apply string_view_eq_iff. Qed.

Lemma string_view_eq_neq (x y : string) : x <> y -> string_view_eq x y = false.
Proof.
  intro H. destruct (string_view_eq x y) eqn:E; [|reflexivity].
  now apply string_view_eq_iff in E.
Qed.

(** Reading one byte further in buffers that are one byte longer. *)
Lemma memcmp_reads_shift (a b : ascii) (p q : string) (n : nat) :
  forall i : nat,
    memcmp_reads (String a p) (String b q) (S i) n = memcmp_reads p q i n.
Proof.
  induction n as [|n IH]; intro i; simpl; [reflexivity|].
  unfold byte_at; simpl.
  destruct (String.get i p) as [c|]; [|reflexivity].
  destruct (String.get i q) as [d|]; [|reflexivity].
  now rewrite IH.
Qed.

(** With buffers of one size, [memcmp] over that size reads inside both. *)
Lemma memcmp_reads_in_bounds (p : string) :
  forall q : string,
    String.length p = String.length q ->
    memcmp_reads p q 0 (String.length p) = Some (memcmp p q (String.length p)).
Proof.
  induction p as [|a p IH]; intros [|b q] Hlen; simpl in *; try discriminate.
  - reflexivity.
  - injection Hlen as Hlen. unfold byte_at; simpl.
    destruct (uchar a =? uchar b); [|reflexivity].
    rewrite memcmp_reads_shift. now apply IH.
Qed.

Lemma string_view_eq_reads_defined (x y : string) :
  string_view_eq_reads x y = Some (string_view_eq x y).
Proof.
  unfold string_view_eq_reads, string_view_eq; cbv zeta.
  destruct (Nat.eqb (String.length x) (String.length y)) eqn:Hlen; simpl;
    [|reflexivity].
  destruct (Nat.eqb (String.length x) 0) eqn:H0; simpl; [reflexivity|].
  apply Nat.eqb_eq in Hlen.
  now rewrite (memcmp_reads_in_bounds x y Hlen).
Qed.

(** ** The member function with a body: [DoesSupport] *)

Section DoesSupportFacts.

Context {Message Entropy P : Type}.

(** C1: for every manager and every string, the empty string and strings
    that differ from the type identifier only in case included,
    [DoesSupport] answers true exactly when the string is equal, byte for
    byte, to what [get_key_type] returns. *)
Theorem DoesSupport_iff_key_type (m : KeyManager Message Entropy P) (x : string) :
  DoesSupport m x = true <-> x = get_key_type m.
Proof. unfold DoesSupport. apply string_view_eq_iff. Qed.

(** C7: for every manager and every string [DoesSupport] returns a boolean:
    the comparison it performs reads only inside the two strings, so it has
    a defined result, and that result is the value of [DoesSupport]. *)
Theorem DoesSupport_total (m : KeyManager Message Entropy P) (x : string) :
  exists b : bool, DoesSupport_reads m x = Some b /\ DoesSupport m x = b.
Proof.
  exists (DoesSupport m x). split; [|reflexivity].
  unfold DoesSupport_reads, DoesSupport. apply string_view_eq_reads_defined.
Qed.

(** C10: the version a manager reports is a [uint32_t]: it lies between 0
    and 2^32 - 1. *)
Theorem get_version_range (m : KeyManager Message Entropy P) :
  0 <= uint32_val (get_version m) <= 2 ^ 32 - 1.
Proof.
  pose proof (uint32_fits (get_version m)) as H.
  unfold fits_uint32, UINT32_MAX in H.
  apply andb_prop in H as [Hlo Hhi].
  apply Z.leb_le in Hlo. apply Z.leb_le in Hhi. lia.
Qed.

End DoesSupportFacts.

(** The empty string is supported only by a manager whose identifier is
    empty, and changing the case of one letter of the identifier is enough
    to be refused. *)
Example DoesSupport_demo_cases :
  DoesSupport Demo.demo_manager "" = false /\
  DoesSupport Demo.demo_manager "type.googleapis.com/demo.Key" = true /\
  DoesSupport Demo.demo_manager "type.googleapis.com/demo.key" = false /\
  DoesSupport Demo.demo_manager "TYPE.GOOGLEAPIS.COM/DEMO.KEY" = false.
Proof. repeat split; reflexivity. Qed.

(** ** Managers and factories built as the specification describes *)

Section SpecModelFacts.

Context {Message Entropy P : Type}.
Variable kt : KeyTypeSpec Message Entropy P.

Lemma version_exceeds_true (key : Message) :
  version_exceeds kt key = true <->
  Z.of_N (kt_key_version kt key) > uint32_val (get_version (spec_manager kt)).
Proof. unfold version_exceeds; simpl. rewrite Z.gtb_gt. reflexivity. Qed.

Lemma version_exceeds_false (key : Message) :
  version_exceeds kt key = false <->
  Z.of_N (kt_key_version kt key) <= uint32_val (get_version (spec_manager kt)).
Proof.
  unfold version_exceeds; simpl. rewrite Z.gtb_ltb, Z.ltb_ge. reflexivity.
Qed.

(** What [GetPrimitive] does with a container of the manager's own type
    whose bytes deserialize. *)
Lemma GetPrimitive_KeyData_parsed (key_data : KeyData) (key : Message) :
  type_url key_data = get_key_type (spec_manager kt) ->
  kt_parse_key kt (value key_data) = Some key ->
  GetPrimitive_KeyData (spec_manager kt) key_data =
    if version_exceeds kt key then Err VersionMismatch
    else Ok (Some (kt_construct kt key)).
Proof.
  intros Hurl Hparse. simpl in *. unfold spec_GetPrimitive_KeyData.
  rewrite Hurl, string_view_eq_refl, Hparse. reflexivity.
Qed.

(** C2: a container whose type identifier is not the manager's is refused
    with [WrongKeyType], whatever its bytes are. *)
Theorem GetPrimitive_wrong_key_type (key_data : KeyData) :
  type_url key_data <> get_key_type (spec_manager kt) ->
  GetPrimitive_KeyData (spec_manager kt) key_data = Err WrongKeyType.
Proof.
  intro Hneq. simpl in *. unfold spec_GetPrimitive_KeyData.
  now rewrite (string_view_eq_neq _ _ Hneq).
Qed.

(** C3: for a container of the manager's type whose bytes deserialize into a
    key: when the embedded version exceeds [get_version] (one more than it,
    in particular) [GetPrimitive] fails with [VersionMismatch]; when it is
    at most [get_version], [GetPrimitive] does not fail with
    [VersionMismatch]. *)
Theorem GetPrimitive_version_check (key_data : KeyData) (key : Message) :
  type_url key_data = get_key_type (spec_manager kt) ->
  kt_parse_key kt (value key_data) = Some key ->
  (Z.of_N (kt_key_version kt key) > uint32_val (get_version (spec_manager kt)) ->
   GetPrimitive_KeyData (spec_manager kt) key_data = Err VersionMismatch) /\
  (Z.of_N (kt_key_version kt key) = uint32_val (get_version (spec_manager kt)) + 1 ->
   GetPrimitive_KeyData (spec_manager kt) key_data = Err VersionMismatch) /\
  (Z.of_N (kt_key_version kt key) <= uint32_val (get_version (spec_manager kt)) ->
   GetPrimitive_KeyData (spec_manager kt) key_data <> Err VersionMismatch).
Proof.
  intros Hurl Hparse.
  rewrite (GetPrimitive_KeyData_parsed key_data key Hurl Hparse).
  repeat split.
  - intro Hgt. apply version_exceeds_true in Hgt. now rewrite Hgt.
  - intro Heq.
    assert (Hgt : Z.of_N (kt_key_version kt key) > uint32_val (get_version (spec_manager kt)))
      by lia.
    apply version_exceeds_true in Hgt. now rewrite Hgt.
  - intro Hle. apply version_exceeds_false in Hle. rewrite Hle. discriminate.
Qed.

(** C5: [GetPrimitive] is all or nothing, on a container and on a key object
    alike: it never returns a null primitive, and either it returns the
    primitive constructed from the whole key, or it returns one of the typed
    errors and no primitive. *)
Theorem GetPrimitive_all_or_nothing :
  (forall key_data : KeyData, GetPrimitive_KeyData (spec_manager kt) key_data <> Ok nullptr) /\
  (forall key : Message, GetPrimitive_Message (spec_manager kt) key <> Ok nullptr) /\
  (forall key_data : KeyData,
     (exists key : Message,
        kt_parse_key kt (value key_data) = Some key /\
        GetPrimitive_KeyData (spec_manager kt) key_data = Ok (Some (kt_construct kt key))) \/
     (exists code : StatusCode,
        GetPrimitive_KeyData (spec_manager kt) key_data = Err code /\
        In code [WrongKeyType; ParseError; VersionMismatch])) /\
  (forall key : Message,
     GetPrimitive_Message (spec_manager kt) key = Ok (Some (kt_construct kt key)) \/
     (exists code : StatusCode,
        GetPrimitive_Message (spec_manager kt) key = Err code /\
        In code [InvalidArgument; VersionMismatch])).
Proof.
  split; [|split; [|split]].
  - intro kd. simpl. unfold spec_GetPrimitive_KeyData, nullptr.
    destruct (string_view_eq (type_url kd) (kt_type_url kt)); simpl;
      [|discriminate].
    destruct (kt_parse_key kt (value kd)) as [key|]; [|discriminate].
    destruct (version_exceeds kt key); discriminate.
  - intro key. simpl. unfold spec_GetPrimitive_Message, nullptr.
    destruct (kt_is_key kt key); simpl; [|discriminate].
    destruct (version_exceeds kt key); discriminate.
  - intro kd. simpl. unfold spec_GetPrimitive_KeyData.
    destruct (string_view_eq (type_url kd) (kt_type_url kt)); simpl.
    + destruct (kt_parse_key kt (value kd)) as [key|].
      * destruct (version_exceeds kt key).
        -- right. exists VersionMismatch. simpl. auto.
        -- left. exists key. auto.
      * right. exists ParseError. simpl. auto.
    + right. exists WrongKeyType. simpl. auto.
  - intro key. simpl. unfold spec_GetPrimitive_Message.
    destruct (kt_is_key kt key); simpl.
    + destruct (version_exceeds kt key).
      * right. exists VersionMismatch. simpl. auto.
      * left. reflexivity.
    + right. exists InvalidArgument. simpl. auto.
Qed.

End SpecModelFacts.

(** ** The definitions at work on the small key type *)

(** A container with the identifier in another case, whose bytes are those
    of a good key, is refused for its type. *)
Lemma GetPrimitive_wrong_key_type_witness :
  type_url Demo.wrong_case_key_data <> get_key_type Demo.demo_manager /\
  Demo.parse_key (value Demo.wrong_case_key_data) = Some (Demo.Key 1 "abc") /\
  GetPrimitive_KeyData Demo.demo_manager Demo.wrong_case_key_data = Err WrongKeyType.
Proof.
  assert (Hneq : type_url Demo.wrong_case_key_data <> get_key_type Demo.demo_manager)
    by (simpl; discriminate).
  split; [exact Hneq|]. split; [reflexivity|].
  exact (GetPrimitive_wrong_key_type Demo.key_type Demo.wrong_case_key_data Hneq).
Defined.

(** The manager has version 1: a key of version 2 is refused for its
    version, a key of version 1 is not. *)
Lemma GetPrimitive_version_check_witness :
  GetPrimitive_KeyData Demo.demo_manager Demo.newer_key_data = Err VersionMismatch /\
  GetPrimitive_KeyData Demo.demo_manager Demo.current_key_data <> Err VersionMismatch.
Proof.
  split.
  - refine (proj1 (proj2 (GetPrimitive_version_check Demo.key_type
                            Demo.newer_key_data (Demo.Key 2 "abc")
                            eq_refl eq_refl)) _).
    reflexivity.
  - refine (proj2 (proj2 (GetPrimitive_version_check Demo.key_type
                            Demo.current_key_data (Demo.Key 1 "abc")
                            eq_refl eq_refl)) _).
    simpl. lia.
Defined.

(** ** What [DoesSupport] means for the users of managers

    Registries dispatch on [DoesSupport]; the facts below are what they can
    rely on.  Managers of different primitives, and over different message
    types, are compared freely: [DoesSupport] looks at identifiers only. *)

Lemma string_view_eq_sym (x y : string) : string_view_eq x y = string_view_eq y x.
Proof.
  destruct (string_view_eq x y) eqn:Hxy, (string_view_eq y x) eqn:Hyx;
    try reflexivity.
  - apply string_view_eq_iff in Hxy. subst y.
    now rewrite string_view_eq_refl in Hyx.
  - apply string_view_eq_iff in Hyx. subst y.
    now rewrite string_view_eq_refl in Hxy.
Qed.

Lemma append_same_left (x s : string) : (x ++ s)%string = x -> s = EmptyString.
Proof.
  induction x as [|c x IH]; simpl; intro H; [exact H|].
  injection H as H. now apply IH.
Qed.

Lemma append_empty_right (x : string) : (x ++ EmptyString)%string = x.
Proof. induction x as [|c x IH]; simpl; [reflexivity | now rewrite IH]. Qed.

Section DoesSupportForRegistries.

Context {Message Entropy P : Type}.


(** X2: an identifier that continues after the manager's type identifier is
    refused, however it continues (with a NUL byte, for one): the
    comparison is on the whole string, not on a prefix. *)
Theorem DoesSupport_refuses_extension
  (m : KeyManager Message Entropy P) (s : string) :
  DoesSupport m (get_key_type m ++ s)%string = true <-> s = EmptyString.
Proof.
  unfold DoesSupport. rewrite string_view_eq_iff. split.
  - apply append_same_left.
  - intros ->. apply append_empty_right.
Qed.

(** X3: an identifier that is the beginning of the manager's type identifier
    is supported only when nothing follows it there: a proper prefix is
    refused. *)
Theorem DoesSupport_refuses_proper_prefix
  (m : KeyManager Message Entropy P) (x s : string) :
  get_key_type m = (x ++ s)%string ->
  (DoesSupport m x = true <-> s = EmptyString).
Proof.
  intro Hkt. unfold DoesSupport. rewrite string_view_eq_iff, Hkt. split.
  - intro H. symmetry in H. now apply append_same_left in H.
  - intros ->. symmetry. apply append_empty_right.
Qed.

(** X4: among managers whose type identifiers are pairwise different, at
    most one supports a given identifier, so dispatch by [DoesSupport] over
    such a collection is never ambiguous. *)
Theorem DoesSupport_dispatch_unambiguous
  (ms : list (KeyManager Message Entropy P)) (x : string) :
  NoDup (map get_key_type ms) ->
  (List.length (filter (fun m => DoesSupport m x) ms) <= 1)%nat.
Proof.
  induction ms as [|m ms IH]; simpl; intro Hnd; [lia|].
  inversion Hnd as [|k ks Hnotin Hnd']; subst.
  destruct (DoesSupport m x) eqn:Hm; [|now apply IH].
  unfold DoesSupport in Hm. apply string_view_eq_iff in Hm. subst x.
  assert (Hnone : filter (fun m' => DoesSupport m' (get_key_type m)) ms = []).
  { clear IH Hnd Hnd'. induction ms as [|m' ms IHms]; simpl; [reflexivity|].
    simpl in Hnotin.
    destruct (DoesSupport m' (get_key_type m)) eqn:Hm'.
    - unfold DoesSupport in Hm'. apply string_view_eq_iff in Hm'.
      exfalso. apply Hnotin. left. now symmetry.
    - apply IHms. intro Hin. apply Hnotin. now right. }
  rewrite Hnone. simpl. lia.
Qed.

End DoesSupportForRegistries.

Section DoesSupportAcrossManagers.

Context {Message1 Entropy1 P1 Message2 Entropy2 P2 : Type}.
Variable m1 : KeyManager Message1 Entropy1 P1.
Variable m2 : KeyManager Message2 Entropy2 P2.

(** X5: support between two managers is mutual: the first supports the type
    identifier of the second exactly when the second supports that of the
    first, whatever primitives they build. *)
Theorem DoesSupport_mutual :
  DoesSupport m1 (get_key_type m2) = DoesSupport m2 (get_key_type m1).
Proof. unfold DoesSupport. apply string_view_eq_sym. Qed.

(** X6: [DoesSupport] tells key types apart and nothing else: two managers
    answer alike on every identifier exactly when they report the same type
    identifier. *)
Theorem DoesSupport_determines_key_type :
  (forall x : string, DoesSupport m1 x = DoesSupport m2 x) <->
  get_key_type m1 = get_key_type m2.
Proof.
  unfold DoesSupport. split.
  - intro H. specialize (H (get_key_type m1)).
    rewrite string_view_eq_refl in H. symmetry in H.
    now apply string_view_eq_iff in H.
  - intros -> x. reflexivity.
Qed.

End DoesSupportAcrossManagers.

(** The demo identifier begins with the host part of the URL, which on its
    own is not supported. *)
Lemma DoesSupport_refuses_proper_prefix_witness :
  get_key_type Demo.demo_manager = ("type.googleapis.com/" ++ "demo.Key")%string /\
  (DoesSupport Demo.demo_manager "type.googleapis.com/" = true <->
   "demo.Key" = EmptyString).
Proof.
  split; [reflexivity|].
  exact (DoesSupport_refuses_proper_prefix Demo.demo_manager
           "type.googleapis.com/" "demo.Key" eq_refl).
Defined.

(** Of the two demo managers only one answers to the demo identifier. *)
Lemma DoesSupport_dispatch_unambiguous_witness :
  NoDup (map get_key_type [Demo.demo_manager; Demo.other_manager]) /\
  (List.length (filter (fun m => DoesSupport m Demo.demo_url)
                       [Demo.demo_manager; Demo.other_manager]) <= 1)%nat.
Proof.
  assert (Hnd : NoDup (map get_key_type [Demo.demo_manager; Demo.other_manager])).
  { simpl. repeat constructor; simpl.
    - intros [H | []]. discriminate H.
    - intros []. }
  split; [exact Hnd|].
  exact (DoesSupport_dispatch_unambiguous
           [Demo.demo_manager; Demo.other_manager] Demo.demo_url Hnd).
Defined.
